(** * AzureAD: the authentication-state bridge of react-aad-msal

    A shallow embedding of [src/AzureAD.tsx].  The component is a React class
    component: its methods read [this.props] and [this.state], call the
    provider, [console.warn], the caller's callbacks and the inherited
    [this.setState].  Every call that leaves the component is recorded, in
    program order, in a trace of [Event]s; the methods themselves are state
    transformers over the component instance that either return or throw. *)

From Stdlib Require Import List String Bool Arith Lia.
From Stdlib Require Import Floats.SpecFloat.
Import ListNotations.
Local Open Scope string_scope.
Local Open Scope list_scope.

(** ** Data model *)

(** Modelled from the spec: [Interfaces.ts] is not part of the sources at
    hand.  The spec describes [AuthenticationState] as a closed enumeration
    with the members [Unauthenticated], [Authenticated] and one
    in-progress member. *)
Inductive AuthenticationState : Type :=
| Unauthenticated
| InProgress
| Authenticated.

(** Strict equality [===] on the enumeration. *)
Definition AuthenticationState_eqb (a b : AuthenticationState) : bool :=
  match a, b with
  | Unauthenticated, Unauthenticated => true
  | InProgress, InProgress => true
  | Authenticated, Authenticated => true
  | _, _ => false
  end.

(** The four function values the component hands out:
    [this.login] and [this.logout] are the component's own arrow functions,
    [this.authProvider.login] and [this.authProvider.logout] the provider's
    methods as destructured in [render]. *)
Inductive ActionRef : Type :=
| This_login
| This_logout
| AuthProvider_login
| AuthProvider_logout.

(** The two handlers the component registers; each is an arrow-function
    property, so one instance always passes the same function object. *)
Inductive Handler : Type :=
| This_setAuthenticationState
| This_onAccountInfoChanged.

(** A reference to the caller's [accountInfoCallback] function. *)
Definition CallbackRef : Type := nat.

(** Where the instance is in the React life cycle.  The constructor runs in
    [Constructing]; React then mounts the instance; after
    [componentWillUnmount] it is [Unmounted]. *)
Inductive Lifecycle : Type :=
| Constructing
| Mounted
| Unmounted.

(** The one exception in play: React's invariant failure when [render]
    returns [undefined] (its message starts "Nothing was returned from
    render"). *)
Inductive Exception : Type :=
| NothingWasReturnedFromRender.

(** How a call ends: it returns a value or throws. *)
Inductive Completion (A : Type) : Type :=
| Returned (a : A)
| Thrown (e : Exception).

Arguments Returned {A} a.
Arguments Thrown {A} e.

Section Bridge.

(** [IAccountInfo] (from the missing [Interfaces.ts]) and redux's [Store] are
    opaque to the component: it only stores and forwards them. *)
Context {IAccountInfo Store : Type}.

(** [interface IAzureADFunctionProps] *)
Record IAzureADFunctionProps : Type := {
  fp_login : ActionRef;
  fp_logout : ActionRef;
  fp_authenticationState : AuthenticationState;
  fp_accountInfo : option IAccountInfo
}.

(** Run-time values that can appear as [children] or as the result of a
    content function.  Numbers are IEEE 754 doubles; [JsObject] stands for
    any object that is not callable (a JSX element, an array). *)
Inductive JsValue : Type :=
| JsUndefined
| JsNull
| JsBoolean (b : bool)
| JsNumber (x : spec_float)
| JsString (s : string)
| JsObject (ref : nat)
| JsFunction (f : IAzureADFunctionProps -> JsValue).

(** ECMAScript [ToBoolean]: what [if (v)] and [v || w] test. *)
Definition ToBoolean (v : JsValue) : bool :=
  match v with
  | JsUndefined => false
  | JsNull => false
  | JsBoolean b => b
  | JsNumber (S754_zero _) => false
  | JsNumber S754_nan => false
  | JsNumber _ => true
  | JsString EmptyString => false
  | JsString _ => true
  | JsObject _ => true
  | JsFunction _ => true
  end.

(** [typeof v == 'function'] *)
Definition is_function (v : JsValue) : bool :=
  match v with
  | JsFunction _ => true
  | _ => false
  end.

(** [a || b] *)
Definition js_or (a b : JsValue) : JsValue :=
  if ToBoolean a then a else b.

(** Modelled from the spec: [MsalAuthProvider.ts] is not part of the sources
    at hand.  The two synchronous reads the component makes are fields; the
    provider's methods ([register...], [unregister...], [login], [logout])
    are fire-and-forget and appear as [Event]s. *)
Record MsalAuthProvider : Type := {
  getAccountInfo : option IAccountInfo;
  authenticationState : AuthenticationState
}.

(** [interface IAzureADProps], with React's [children]. *)
Record IAzureADProps : Type := {
  provider : MsalAuthProvider;
  unauthenticatedFunction : option (ActionRef -> JsValue);
  authenticatedFunction : option (ActionRef -> JsValue);
  accountInfoCallback : option CallbackRef;
  reduxStore : option Store;
  forceLogin : option bool;
  children : JsValue
}.

(** [interface IAzureADState]: the snapshot. *)
Record IAzureADState : Type := {
  st_authenticationState : AuthenticationState;
  st_accountInfo : option IAccountInfo
}.

(** The partial states the component passes to [setState]. *)
Inductive StateUpdate : Type :=
| Upd_authenticationState (newState : AuthenticationState)
| Upd_accountInfo (newAccountInfo : IAccountInfo).

(** Calls that leave the component, and React's re-render. *)
Inductive Event : Type :=
| registerAuthenticationStateHandler (h : Handler)
| registerAcountInfoHandler (h : Handler)
| registerReduxStore (s : Store)
| unregisterAuthenticationStateHandler (h : Handler)
| unregisterAccountInfoHandler (h : Handler)
| authProvider_login
| authProvider_logout
| console_warn (msg : string)
| call_accountInfoCallback (cb : CallbackRef) (a : IAccountInfo)
| call_authenticatedFunction (arg : ActionRef)
| call_unauthenticatedFunction (arg : ActionRef)
| call_children (p : IAzureADFunctionProps)
| call_setState (u : StateUpdate)
| rendered (snapshot : IAzureADState) (content : JsValue).

(** A completion callback as React keeps it in its queue: run after the
    re-render, on the props and the snapshot of that moment, it makes calls. *)
Definition Callback : Type := IAzureADProps -> IAzureADState -> list Event.

(** The component instance.  [props] and [state] are the component's;
    the other fields are what React keeps about the instance: its place in
    the life cycle, whether a batch of updates is open around the code that
    is running (a React event handler, [unstable_batchedUpdates]), and the
    [setState] calls queued during that batch. *)
Record AzureAD : Type := {
  props : IAzureADProps;
  state : IAzureADState;
  lifecycle : Lifecycle;
  batching : bool;
  updateQueue : list (StateUpdate * Callback)
}.

(** Truthiness of the optional boolean [props.forceLogin]. *)
Definition forceLogin_set (p : IAzureADProps) : bool :=
  match forceLogin p with
  | Some b => b
  | None => false
  end.

(** ** Content resolution *)

Definition warn_authenticatedFunction : string :=
  "Warning! The authenticatedFunction callback has been deprecated and will be removed in a future release.".

Definition warn_unauthenticatedFunction : string :=
  "Warning! The unauthenticatedFunction callback has been deprecated and will be removed in a future release.".

Definition warn_accountInfoCallback : string :=
  "Warning! The accountInfoCallback callback has been deprecated and will be removed in a future release.".

(** [getChildrenOrFunction]: the value returned and the calls made. *)
Definition getChildrenOrFunction (children : JsValue)
    (fprops : IAzureADFunctionProps) : JsValue * list Event :=
  if ToBoolean children then
    match children with
    | JsFunction f => (f fprops, [call_children fprops])
    | _ => (children, [])
    end
  else (JsNull, []).

(** [childrenFunctionProps] as built at the top of [render]. *)
Definition childrenFunctionProps (this : AzureAD) : IAzureADFunctionProps :=
  {| fp_login := AuthProvider_login;
     fp_logout := AuthProvider_logout;
     fp_authenticationState := st_authenticationState (state this);
     fp_accountInfo := st_accountInfo (state this) |}.

(** [render]: reads [this.props] and [this.state] and changes neither. *)
Definition render (this : AzureAD) : JsValue * list Event :=
  let generic :=
    getChildrenOrFunction (children (props this)) (childrenFunctionProps this) in
  match st_authenticationState (state this) with
  | Authenticated =>
      match authenticatedFunction (props this) with
      | Some f =>
          let authFunctionResult := f This_logout in
          if ToBoolean authFunctionResult then
            (authFunctionResult,
             [call_authenticatedFunction This_logout;
              console_warn warn_authenticatedFunction])
          else
            (fst generic, call_authenticatedFunction This_logout :: snd generic)
      | None => generic
      end
  | Unauthenticated =>
      match unauthenticatedFunction (props this) with
      | Some f =>
          (js_or (f This_login) JsNull,
           [console_warn warn_unauthenticatedFunction;
            call_unauthenticatedFunction This_login])
      | None => generic
      end
  | InProgress => (JsNull, [])
  end.

(** ** Methods as state transformers with a trace *)

(** A method runs on the instance, may replace it, appends to the trace,
    and returns or throws; what follows a throwing call does not run. *)
Definition M (A : Type) : Type :=
  AzureAD -> Completion A * AzureAD * list Event.

Definition ret {A : Type} (a : A) : M A :=
  fun this => (Returned a, this, []).

Definition bind {A B : Type} (m : M A) (k : A -> M B) : M B :=
  fun this =>
    match m this with
    | (Returned a, this1, log1) =>
        let '(b, this2, log2) := k a this1 in
        (b, this2, log1 ++ log2)
    | (Thrown e, this1, log1) => (Thrown e, this1, log1)
    end.

Definition emit (e : Event) : M unit :=
  fun this => (Returned tt, this, [e]).

Definition get_this : M AzureAD :=
  fun this => (Returned this, this, []).

Notation "x <- m ;; k" := (bind m (fun x => k))
  (at level 61, m at next level, right associativity).
Notation "m ;; k" := (bind m (fun _ => k))
  (at level 61, right associativity).

Definition result_of {A : Type} (r : A * AzureAD * list Event) : AzureAD :=
  snd (fst r).

Definition trace_of {A : Type} (r : A * AzureAD * list Event) : list Event :=
  snd r.

Definition completion_of {A : Type} (r : A * AzureAD * list Event) : A :=
  fst (fst r).

(** Merging a partial state into [this.state]. *)
Definition apply_update (u : StateUpdate) (this : AzureAD) : AzureAD :=
  {| props := props this;
     state :=
       match u with
       | Upd_authenticationState newState =>
           {| st_authenticationState := newState;
              st_accountInfo := st_accountInfo (state this) |}
       | Upd_accountInfo newAccountInfo =>
           {| st_authenticationState := st_authenticationState (state this);
              st_accountInfo := Some newAccountInfo |}
       end;
     lifecycle := lifecycle this;
     batching := batching this;
     updateQueue := updateQueue this |}.

(** What React accepts from [render]: anything but [undefined]. *)
Definition is_renderable (content : JsValue) : bool :=
  match content with
  | JsUndefined => false
  | _ => true
  end.

(** The instance with the given props and snapshot, mounted, with no batch
    open and nothing queued. *)
Definition settled (p : IAzureADProps) (st : IAzureADState) : AzureAD :=
  {| props := p;
     state := st;
     lifecycle := Mounted;
     batching := false;
     updateQueue := [] |}.

(** A completion callback as queued: the calls it makes when run on the
    instance as it is after the re-render. *)
Definition as_callback (callback : M unit) : Callback :=
  fun p st => trace_of (callback (settled p st)).

Definition set_updateQueue (queue : list (StateUpdate * Callback))
    (this : AzureAD) : AzureAD :=
  {| props := props this;
     state := state this;
     lifecycle := lifecycle this;
     batching := batching this;
     updateQueue := queue |}.

Definition set_batching (b : bool) (this : AzureAD) : AzureAD :=
  {| props := props this;
     state := state this;
     lifecycle := lifecycle this;
     batching := b;
     updateQueue := updateQueue this |}.

Definition enqueue (u : StateUpdate) (callback : M unit) (this : AzureAD) :
    AzureAD :=
  set_updateQueue (updateQueue this ++ [(u, as_callback callback)]) this.



(** [this.setState(partial, callback)], inherited from [React.Component] and
    so not part of the sources: modelled after React 16 for a class component
    without [shouldComponentUpdate].

    On an instance that is not mounted (still in its constructor, or
    unmounted) the call is a no-op: nothing is merged, nothing is rendered
    and the callback is never run.

    On a mounted instance with a batch open, the call only queues the partial
    state and the callback: [this.state] keeps its value until the batch ends
    (see [flush]), and the code after the call runs before the update.

    On a mounted instance with no batch open, the partial state is merged and
    the component is rendered again at once.  If [render] returns
    [undefined] React throws out of [setState]: nothing is rendered, and
    neither the completion callback nor the code after the call runs.
    Otherwise the re-render is committed and then the callback runs.
    (React's development build calls [render] a second time on such a
    failure, to report it; the trace records one call, as the production
    build makes.)

    What React does about the exception, unmounting the tree, is not a call
    the handler makes; it is [react_guard]. *)
Definition setState (u : StateUpdate) (callback : M unit) : M unit :=
  fun this =>
    match lifecycle this with
    | Mounted =>
        if batching this then
          (Returned tt, enqueue u callback this, [call_setState u])
        else
          let this1 := apply_update u this in
          let '(content, rlog) := render this1 in
          if is_renderable content then
            let '(c, this2, clog) := callback this1 in
            (c, this2,
             call_setState u :: rlog ++ rendered (state this1) content :: clog)
          else
            (Thrown NothingWasReturnedFromRender, this1, call_setState u :: rlog)
    | _ => (Returned tt, this, [call_setState u])
    end.

(** [private login] *)
Definition login : M unit :=
  emit authProvider_login.

(** [private logout] *)
Definition logout : M unit :=
  this <- get_this ;;
  if negb (AuthenticationState_eqb (st_authenticationState (state this))
             Authenticated)
  then ret tt
  else emit authProvider_logout.

(** [public setAuthenticationState] *)
Definition setAuthenticationState (newState : AuthenticationState) : M unit :=
  this <- get_this ;;
  if negb (AuthenticationState_eqb newState
             (st_authenticationState (state this)))
  then
    setState (Upd_authenticationState newState)
      (this' <- get_this ;;
       if AuthenticationState_eqb newState Unauthenticated
          && forceLogin_set (props this')
       then login
       else ret tt)
  else ret tt.

(** [public onAccountInfoChanged] *)
Definition onAccountInfoChanged (newAccountInfo : IAccountInfo) : M unit :=
  this <- get_this ;;
  let accountInfoCallback := accountInfoCallback (props this) in
  setState (Upd_accountInfo newAccountInfo) (ret tt) ;;
  match accountInfoCallback with
  | Some cb =>
      emit (console_warn warn_accountInfoCallback) ;;
      emit (call_accountInfoCallback cb newAccountInfo)
  | None => ret tt
  end.

(** The field initialisers: [authProvider] and [state] are read from the
    provider before the constructor body runs. *)
Definition initial_instance (p : IAzureADProps) : AzureAD :=
  {| props := p;
     state :=
       {| st_authenticationState := authenticationState (provider p);
          st_accountInfo := getAccountInfo (provider p) |};
     lifecycle := Constructing;
     batching := false;
     updateQueue := [] |}.

(** The body of [constructor(props)] after [super(props)]. *)
Definition constructor_body : M unit :=
  emit (registerAuthenticationStateHandler This_setAuthenticationState) ;;
  emit (registerAcountInfoHandler This_onAccountInfoChanged) ;;
  this <- get_this ;;
  match reduxStore (props this) with
  | Some store => emit (registerReduxStore store)
  | None => ret tt
  end ;;
  match st_authenticationState (state this) with
  | Authenticated =>
      match st_accountInfo (state this) with
      | Some accountInfo => onAccountInfoChanged accountInfo
      | None => ret tt
      end
  | Unauthenticated =>
      if forceLogin_set (props this) then login else ret tt
  | InProgress => ret tt
  end.

(** [new AzureAD(props)] *)
Definition new_AzureAD (p : IAzureADProps) :
    Completion unit * AzureAD * list Event :=
  constructor_body (initial_instance p).

(** [public componentWillUnmount] *)
Definition componentWillUnmount : M unit :=
  emit (unregisterAuthenticationStateHandler This_setAuthenticationState) ;;
  emit (unregisterAccountInfoHandler This_onAccountInfoChanged).

(** ** The life cycle React drives *)

Definition set_lifecycle (l : Lifecycle) (this : AzureAD) : AzureAD :=
  {| props := props this;
     state := state this;
     lifecycle := l;
     batching := batching this;
     updateQueue := updateQueue this |}.

(** Mounting: the first render, after which [setState] takes effect.  If
    the first render returns [undefined] React throws and the instance is
    never mounted. *)
Definition mount : M unit :=
  fun this =>
    let '(content, rlog) := render this in
    if is_renderable content then
      (Returned tt, set_lifecycle Mounted this,
       rlog ++ [rendered (state this) content])
    else (Thrown NothingWasReturnedFromRender, this, rlog).

(** Unmounting: React calls [componentWillUnmount] and detaches the
    instance. *)
Definition unmount : M unit :=
  fun this =>
    let '(_, this1, log) := componentWillUnmount this in
    (Returned tt, set_lifecycle Unmounted this1, log).




(** What the provider delivers to the registered handlers. *)
Inductive Notification : Type :=
| StateChanged (newState : AuthenticationState)
| AccountInfoChanged (newAccountInfo : IAccountInfo).

Definition deliver (n : Notification) : M unit :=
  match n with
  | StateChanged newState => setAuthenticationState newState
  | AccountInfoChanged newAccountInfo => onAccountInfoChanged newAccountInfo
  end.

Fixpoint deliver_all (ns : list Notification) : M unit :=
  match ns with
  | [] => ret tt
  | n :: rest => deliver n ;; deliver_all rest
  end.





(** ** Counting events *)

Definition count (p : Event -> bool) (log : list Event) : nat :=
  List.length (filter p log).

Definition is_login (e : Event) : bool :=
  match e with authProvider_login => true | _ => false end.

Definition is_logout (e : Event) : bool :=
  match e with authProvider_logout => true | _ => false end.

Definition is_rendered (e : Event) : bool :=
  match e with rendered _ _ => true | _ => false end.

Definition is_setState (e : Event) : bool :=
  match e with call_setState _ => true | _ => false end.

Definition is_warn (e : Event) : bool :=
  match e with console_warn _ => true | _ => false end.

Definition is_accountInfoCallback (e : Event) : bool :=
  match e with call_accountInfoCallback _ _ => true | _ => false end.

Definition is_register_state (e : Event) : bool :=
  match e with registerAuthenticationStateHandler _ => true | _ => false end.

Definition is_register_account (e : Event) : bool :=
  match e with registerAcountInfoHandler _ => true | _ => false end.

Definition is_unregister_state (e : Event) : bool :=
  match e with unregisterAuthenticationStateHandler _ => true | _ => false end.

Definition is_unregister_account (e : Event) : bool :=
  match e with unregisterAccountInfoHandler _ => true | _ => false end.

(** The events [render] can produce: calls of the caller's content functions
    and deprecation warnings. *)
Definition is_render_event (e : Event) : bool :=
  match e with
  | console_warn _ => true
  | call_authenticatedFunction _ => true
  | call_unauthenticatedFunction _ => true
  | call_children _ => true
  | _ => false
  end.

Definition is_children_call (e : Event) : bool :=
  match e with call_children _ => true | _ => false end.

(** Registrations and unregistrations with the provider. *)
Definition is_subscription (e : Event) : bool :=
  is_register_state e || is_register_account e
  || is_unregister_state e || is_unregister_account e.

(** The registration prefix of the constructor's trace. *)
Definition registration_trace (p : IAzureADProps) : list Event :=
  [registerAuthenticationStateHandler This_setAuthenticationState;
   registerAcountInfoHandler This_onAccountInfoChanged]
  ++ match reduxStore p with
     | Some store => [registerReduxStore store]
     | None => []
     end.

(** What [onAccountInfoChanged] does after its [setState] call. *)
Definition callback_trace (p : IAzureADProps) (a : IAccountInfo) : list Event :=
  match accountInfoCallback p with
  | Some cb =>
      [console_warn warn_accountInfoCallback; call_accountInfoCallback cb a]
  | None => []
  end.


(** ** Runs of the bridge *)

(** [k] calls of a method in direct succession. *)
Fixpoint times (k : nat) (m : M unit) : M unit :=
  match k with
  | O => ret tt
  | S k' => m ;; times k' m
  end.







Definition is_register_store (e : Event) : bool :=
  match e with registerReduxStore _ => true | _ => false end.

(** Calls of the two deprecated content functions. *)
Definition is_legacy_call (e : Event) : bool :=
  match e with
  | call_authenticatedFunction _ => true
  | call_unauthenticatedFunction _ => true
  | _ => false
  end.

(** Calls of the provider's actions and subscriptions, and of [setState]:
    everything [render] must not do. *)
Definition is_side_effect (e : Event) : bool :=
  is_login e || is_logout e || is_subscription e || is_register_store e
  || is_setState e || is_accountInfoCallback e || is_rendered e.

(** How many notifications of a run pass the handlers' guards when every
    guard reads the same authentication state [current], as it does inside
    a batch. *)
Fixpoint passing (ns : list Notification) (current : AuthenticationState) :
    nat :=
  match ns with
  | [] => 0
  | StateChanged s :: rest =>
      (if AuthenticationState_eqb s current then 0 else 1)
      + passing rest current
  | AccountInfoChanged _ :: rest => 1 + passing rest current
  end.

End Bridge.

Arguments IAzureADFunctionProps : clear implicits.
Arguments JsValue : clear implicits.
Arguments MsalAuthProvider : clear implicits.
Arguments IAzureADProps : clear implicits.
Arguments IAzureADState : clear implicits.
Arguments StateUpdate : clear implicits.
Arguments Event : clear implicits.
Arguments AzureAD : clear implicits.
Arguments Notification : clear implicits.
Arguments M : clear implicits.

(** ** Concrete instances

    Account infos are named by strings and stores by numbers. *)

(** A content function that shows the signed-in name. *)
Definition sample_children : JsValue string :=
  JsFunction (fun fprops =>
    match fp_accountInfo fprops with
    | Some name => JsString name
    | None => JsString "nobody"
    end).

Definition sample_props (s : AuthenticationState) (info : option string)
    (force : option bool) (cb : option CallbackRef) : IAzureADProps string nat :=
  {| provider := {| getAccountInfo := info; authenticationState := s |};
     unauthenticatedFunction := None;
     authenticatedFunction := None;
     accountInfoCallback := cb;
     reduxStore := Some 7;
     forceLogin := force;
     children := sample_children |}.

(** The same props with the two deprecated content functions supplied. *)
Definition legacy_props (s : AuthenticationState)
    (authenticated unauthenticated : ActionRef -> JsValue string) :
    IAzureADProps string nat :=
  {| provider := {| getAccountInfo := None; authenticationState := s |};
     unauthenticatedFunction := Some unauthenticated;
     authenticatedFunction := Some authenticated;
     accountInfoCallback := None;
     reduxStore := None;
     forceLogin := None;
     children := sample_children |}.

(** The props bundle of a signed-in bridge. *)
Definition sample_fprops : IAzureADFunctionProps string :=
  {| fp_login := AuthProvider_login;
     fp_logout := AuthProvider_logout;
     fp_authenticationState := Authenticated;
     fp_accountInfo := Some "alice" |}.

(** An instance constructed from the props and then mounted. *)
Definition mounted (p : IAzureADProps string nat) : AzureAD string nat :=
  result_of (mount (result_of (new_AzureAD p))).

(** Props with a static content value and no deprecated function. *)
Definition static_props (s : AuthenticationState) (content : JsValue string) :
    IAzureADProps string nat :=
  {| provider := {| getAccountInfo := None; authenticationState := s |};
     unauthenticatedFunction := None;
     authenticatedFunction := None;
     accountInfoCallback := None;
     reduxStore := None;
     forceLogin := None;
     children := content |}.

(** A run of notifications: the session is lost (reported twice), a login
    is in progress, an account arrives, the session is lost again. *)
Definition sample_run : list (Notification string) :=
  [StateChanged Unauthenticated; StateChanged Unauthenticated;
   StateChanged InProgress; AccountInfoChanged "bob";
   StateChanged Unauthenticated].


Section BridgeFacts.

Context {IAccountInfo Store : Type}.

Implicit Types (this : AzureAD IAccountInfo Store)
  (p : IAzureADProps IAccountInfo Store)
  (n : Notification IAccountInfo)
  (ns : list (Notification IAccountInfo))
  (c : JsValue IAccountInfo)
  (fp : IAzureADFunctionProps IAccountInfo)
  (u : StateUpdate IAccountInfo)
  (callback : M IAccountInfo Store unit)
  (e : Event IAccountInfo Store)
  (l log : list (Event IAccountInfo Store))
  (pr q : Event IAccountInfo Store -> bool).

(** ** Basic facts *)

Lemma AuthenticationState_eqb_spec (a b : AuthenticationState) :
  reflect (a = b) (AuthenticationState_eqb a b).
Proof. destruct a, b; simpl; constructor; congruence. Qed.


Lemma count_app pr l1 l2 :
  count pr (l1 ++ l2) = count pr l1 + count pr l2.
Proof. unfold count. now rewrite filter_app, length_app. Qed.

Lemma count_cons pr e l :
  count pr (e :: l) = (if pr e then 1 else 0) + count pr l.
Proof. unfold count. simpl. now destruct (pr e). Qed.

Lemma count_none pr q l :
  (forall e, q e = true -> pr e = false) ->
  Forall (fun e => q e = true) l ->
  count pr l = 0.
Proof.
  intros Hpq Hl. induction Hl as [|e l He _ IH].
  - reflexivity.
  - rewrite count_cons, (Hpq e He), IH. reflexivity.
Qed.

Lemma filter_none pr q l :
  (forall e, q e = true -> pr e = false) ->
  Forall (fun e => q e = true) l ->
  filter pr l = [].
Proof.
  intros Hpq Hl. induction Hl as [|e l He _ IH].
  - reflexivity.
  - simpl. now rewrite (Hpq e He).
Qed.

Lemma getChildrenOrFunction_events c fp :
  Forall (fun e => is_render_event e = true) (snd (getChildrenOrFunction c fp)).
Proof.
  unfold getChildrenOrFunction.
  destruct (ToBoolean c); [destruct c|]; simpl; repeat constructor.
Qed.

Lemma render_events this :
  Forall (fun e => is_render_event e = true) (snd (render this)).
Proof.
  unfold render.
  destruct (st_authenticationState (state this)).
  - destruct (unauthenticatedFunction (props this)); simpl.
    + repeat constructor.
    + apply getChildrenOrFunction_events.
  - constructor.
  - destruct (authenticatedFunction (props this)) as [f|]; simpl.
    + destruct (ToBoolean (f This_logout)); simpl.
      * repeat constructor.
      * constructor; [reflexivity|apply getChildrenOrFunction_events].
    + apply getChildrenOrFunction_events.
Qed.



Lemma count_render pr this :
  (forall e, is_render_event e = true -> pr e = false) ->
  count pr (snd (render this)) = 0.
Proof.
  intros H. apply count_none with (q := is_render_event);
    [exact H|apply render_events].
Qed.

Lemma filter_render pr this :
  (forall e, is_render_event e = true -> pr e = false) ->
  filter pr (snd (render this)) = [].
Proof.
  intros H. apply filter_none with (q := is_render_event);
    [exact H|apply render_events].
Qed.


Lemma bind_result {A B : Type} (m : M IAccountInfo Store A)
    (k : A -> M IAccountInfo Store B) this (a : A) :
  completion_of (m this) = Returned a ->
  result_of (bind m k this) = result_of (k a (result_of (m this))).
Proof.
  unfold bind, result_of, completion_of.
  destruct (m this) as [[[a'|e] this1] log1]; cbn [fst snd];
    intros H; [|discriminate H].
  injection H as ->. destruct (k a this1) as [[b this2] log2]. reflexivity.
Qed.

Lemma bind_trace {A B : Type} (m : M IAccountInfo Store A)
    (k : A -> M IAccountInfo Store B) this (a : A) :
  completion_of (m this) = Returned a ->
  trace_of (bind m k this)
  = trace_of (m this) ++ trace_of (k a (result_of (m this))).
Proof.
  unfold bind, result_of, trace_of, completion_of.
  destruct (m this) as [[[a'|e] this1] log1]; cbn [fst snd];
    intros H; [|discriminate H].
  injection H as ->. destruct (k a this1) as [[b this2] log2]. reflexivity.
Qed.

Lemma bind_completion {A B : Type} (m : M IAccountInfo Store A)
    (k : A -> M IAccountInfo Store B) this (a : A) :
  completion_of (m this) = Returned a ->
  completion_of (bind m k this) = completion_of (k a (result_of (m this))).
Proof.
  unfold bind, result_of, completion_of.
  destruct (m this) as [[[a'|e] this1] log1]; cbn [fst snd];
    intros H; [|discriminate H].
  injection H as ->. destruct (k a this1) as [[b this2] log2]. reflexivity.
Qed.

Lemma bind_thrown {A B : Type} (m : M IAccountInfo Store A)
    (k : A -> M IAccountInfo Store B) this (x : Exception) :
  completion_of (m this) = Thrown x ->
  bind m k this = (Thrown x, result_of (m this), trace_of (m this)).
Proof.
  unfold bind, result_of, trace_of, completion_of.
  destruct (m this) as [[[a'|e] this1] log1]; cbn [fst snd];
    intros H; [discriminate H|]. now injection H as ->.
Qed.

(** ** The handlers, case by case *)

Lemma setState_not_mounted u callback this :
  lifecycle this <> Mounted ->
  setState u callback this = (Returned tt, this, [call_setState u]).
Proof.
  intros Hm. unfold setState.
  destruct (lifecycle this); [reflexivity|contradiction|reflexivity].
Qed.

Lemma setState_batching u callback this :
  lifecycle this = Mounted ->
  batching this = true ->
  setState u callback this
  = (Returned tt, enqueue u callback this, [call_setState u]).
Proof. intros Hm Hb. unfold setState. now rewrite Hm, Hb. Qed.

Lemma setState_unbatched u callback this :
  lifecycle this = Mounted ->
  batching this = false ->
  setState u callback this =
    let this1 := apply_update u this in
    if is_renderable (fst (render this1)) then
      (completion_of (callback this1), result_of (callback this1),
       call_setState u
         :: snd (render this1)
         ++ rendered (state this1) (fst (render this1))
         :: trace_of (callback this1))
    else
      (Thrown NothingWasReturnedFromRender, this1,
       call_setState u :: snd (render this1)).
Proof.
  intros Hm Hb. unfold setState. rewrite Hm, Hb. cbv zeta.
  destruct (render (apply_update u this)) as [content rlog]. cbn [fst snd].
  destruct (is_renderable content); [|reflexivity].
  now destruct (callback (apply_update u this)) as [[c0 this2] clog].
Qed.


Lemma setAuthenticationState_eq (s : AuthenticationState) this :
  setAuthenticationState s this =
    if AuthenticationState_eqb s (st_authenticationState (state this))
    then (Returned tt, this, [])
    else
      match lifecycle this with
      | Mounted =>
          if batching this then
            (Returned tt,
             enqueue (Upd_authenticationState s)
               (bind get_this (fun this' =>
                  if AuthenticationState_eqb s Unauthenticated
                     && forceLogin_set (props this')
                  then login else ret tt))
               this,
             [call_setState (Upd_authenticationState s)])
          else
            let this1 := apply_update (Upd_authenticationState s) this in
            if is_renderable (fst (render this1)) then
              (Returned tt, this1,
               call_setState (Upd_authenticationState s)
                 :: snd (render this1)
                 ++ rendered (state this1) (fst (render this1))
                 :: (if AuthenticationState_eqb s Unauthenticated
                        && forceLogin_set (props this)
                     then [authProvider_login] else []))
            else
              (Thrown NothingWasReturnedFromRender, this1,
               call_setState (Upd_authenticationState s)
                 :: snd (render this1))
      | _ => (Returned tt, this, [call_setState (Upd_authenticationState s)])
      end.
Proof.
  unfold setAuthenticationState. unfold bind at 1. unfold get_this at 1.
  destruct (AuthenticationState_eqb s (st_authenticationState (state this)));
    cbn [negb]; [reflexivity|].
  destruct (lifecycle this) eqn:Hl.
  - rewrite setState_not_mounted by (rewrite Hl; discriminate). reflexivity.
  - destruct (batching this) eqn:Hb.
    + rewrite setState_batching by assumption. reflexivity.
    + rewrite setState_unbatched by assumption. cbv zeta.
      destruct (is_renderable _); [|reflexivity].
      unfold bind, get_this, login, emit, ret. cbn [apply_update props].
      destruct (AuthenticationState_eqb s Unauthenticated
                && forceLogin_set (props this)); reflexivity.
  - rewrite setState_not_mounted by (rewrite Hl; discriminate). reflexivity.
Qed.

Lemma onAccountInfoChanged_eq (a : IAccountInfo) this :
  onAccountInfoChanged a this =
    match lifecycle this with
    | Mounted =>
        if batching this then
          (Returned tt, enqueue (Upd_accountInfo a) (ret tt) this,
           call_setState (Upd_accountInfo a) :: callback_trace (props this) a)
        else
          let this1 := apply_update (Upd_accountInfo a) this in
          if is_renderable (fst (render this1)) then
            (Returned tt, this1,
             call_setState (Upd_accountInfo a)
               :: snd (render this1)
               ++ rendered (state this1) (fst (render this1))
               :: callback_trace (props this) a)
          else
            (Thrown NothingWasReturnedFromRender, this1,
             call_setState (Upd_accountInfo a) :: snd (render this1))
    | _ =>
        (Returned tt, this,
         call_setState (Upd_accountInfo a) :: callback_trace (props this) a)
    end.
Proof.
  unfold onAccountInfoChanged, callback_trace.
  unfold bind at 1. unfold get_this at 1. unfold bind at 1.
  destruct (lifecycle this) eqn:Hl.
  - rewrite setState_not_mounted by (rewrite Hl; discriminate).
    destruct (accountInfoCallback (props this)); reflexivity.
  - destruct (batching this) eqn:Hb.
    + rewrite setState_batching by assumption.
      destruct (accountInfoCallback (props this)); reflexivity.
    + rewrite setState_unbatched by assumption. cbv zeta.
      destruct (is_renderable _); [|reflexivity].
      cbn [ret completion_of result_of trace_of fst snd].
      destruct (accountInfoCallback (props this)); cbn [bind emit ret app];
        rewrite ?app_nil_r, <- ?app_assoc; reflexivity.
  - rewrite setState_not_mounted by (rewrite Hl; discriminate).
    destruct (accountInfoCallback (props this)); reflexivity.
Qed.

Lemma setAuthenticationState_not_mounted (newState : AuthenticationState)
    this :
  lifecycle this <> Mounted ->
  setAuthenticationState newState this =
    (Returned tt, this,
     if AuthenticationState_eqb newState (st_authenticationState (state this))
     then [] else [call_setState (Upd_authenticationState newState)]).
Proof.
  intros Hm. rewrite setAuthenticationState_eq.
  destruct (AuthenticationState_eqb newState _); [reflexivity|].
  destruct (lifecycle this); [reflexivity|contradiction|reflexivity].
Qed.

Lemma onAccountInfoChanged_not_mounted (a : IAccountInfo) this :
  lifecycle this <> Mounted ->
  onAccountInfoChanged a this =
    (Returned tt, this,
     call_setState (Upd_accountInfo a) :: callback_trace (props this) a).
Proof.
  intros Hm. rewrite onAccountInfoChanged_eq.
  destruct (lifecycle this); [reflexivity|contradiction|reflexivity].
Qed.



Lemma new_AzureAD_eq p :
  new_AzureAD p =
    (Returned tt, initial_instance p,
     registration_trace p
     ++ match authenticationState (provider p) with
        | Authenticated =>
            match getAccountInfo (provider p) with
            | Some a => call_setState (Upd_accountInfo a) :: callback_trace p a
            | None => []
            end
        | Unauthenticated =>
            if forceLogin_set p then [authProvider_login] else []
        | InProgress => []
        end).
Proof.
  unfold new_AzureAD, constructor_body, registration_trace.
  unfold bind at 1 2 3 4. unfold emit at 1 2. unfold get_this.
  cbn [initial_instance props state st_authenticationState st_accountInfo app].
  destruct (authenticationState (provider p)).
  - unfold login, emit, ret.
    destruct (reduxStore p), (forceLogin_set p); reflexivity.
  - unfold emit, ret. destruct (reduxStore p); reflexivity.
  - destruct (getAccountInfo (provider p)) as [a|].
    + destruct (reduxStore p); unfold emit, ret; cbv beta iota zeta;
        rewrite onAccountInfoChanged_not_mounted by discriminate;
        reflexivity.
    + unfold emit, ret. destruct (reduxStore p); reflexivity.
Qed.

Lemma callback_trace_no_subscription p (a : IAccountInfo) :
  filter is_subscription (callback_trace p a) = [].
Proof. unfold callback_trace. now destruct (accountInfoCallback p). Qed.

Lemma render_no_subscription this :
  filter is_subscription (snd (render this)) = [].
Proof. apply filter_render. now intros []. Qed.

Lemma count_callback_trace pr p (a : IAccountInfo) :
  pr (console_warn warn_accountInfoCallback) = false ->
  (forall cb, pr (call_accountInfoCallback cb a) = false) ->
  count pr (callback_trace p a) = 0.
Proof.
  intros Hw Hc. unfold callback_trace.
  destruct (accountInfoCallback p) as [cb|]; [|reflexivity].
  rewrite !count_cons, Hw, Hc. reflexivity.
Qed.


Lemma mount_no_subscription this :
  filter is_subscription (trace_of (mount this)) = [].
Proof.
  unfold mount. destruct (render this) as [content rlog] eqn:Hr.
  assert (Hrl : filter is_subscription rlog = []).
  { change rlog with (snd (content, rlog)). rewrite <- Hr.
    apply render_no_subscription. }
  destruct (is_renderable content); cbn [trace_of snd];
    rewrite ?filter_app, Hrl; reflexivity.
Qed.

Lemma deliver_no_subscription n this :
  filter is_subscription (trace_of (deliver n this)) = [].
Proof.
  destruct n as [s|a]; cbn [deliver].
  - rewrite setAuthenticationState_eq.
    destruct (AuthenticationState_eqb s _); [reflexivity|].
    destruct (lifecycle this); [reflexivity| |reflexivity].
    destruct (batching this); [reflexivity|]. cbv zeta.
    destruct (is_renderable _);
      cbn [trace_of snd filter is_subscription is_register_state
           is_register_account is_unregister_state is_unregister_account orb];
      rewrite ?filter_app, render_no_subscription; [|reflexivity].
    now destruct (AuthenticationState_eqb s Unauthenticated
                  && forceLogin_set (props this)).
  - rewrite onAccountInfoChanged_eq.
    destruct (lifecycle this); [| |];
      try (cbn [trace_of snd filter is_subscription is_register_state
                is_register_account is_unregister_state is_unregister_account
                orb];
           apply callback_trace_no_subscription).
    destruct (batching this).
    + cbn [trace_of snd filter is_subscription is_register_state
           is_register_account is_unregister_state is_unregister_account orb].
      apply callback_trace_no_subscription.
    + cbv zeta.
      destruct (is_renderable _);
        cbn [trace_of snd filter is_subscription is_register_state
             is_register_account is_unregister_state is_unregister_account orb];
        rewrite ?filter_app, render_no_subscription; [|reflexivity].
      cbn [app filter is_subscription is_register_state
           is_register_account is_unregister_state is_unregister_account orb].
      apply callback_trace_no_subscription.
Qed.


Lemma deliver_all_trace_cons n rest this :
  completion_of (deliver n this) = Returned tt ->
  trace_of (deliver_all (n :: rest) this)
  = trace_of (deliver n this)
    ++ trace_of (deliver_all rest (result_of (deliver n this))).
Proof.
  intros H. cbn [deliver_all].
  exact (bind_trace (deliver n) (fun _ => deliver_all rest) this tt H).
Qed.

Lemma deliver_all_result_cons n rest this :
  completion_of (deliver n this) = Returned tt ->
  result_of (deliver_all (n :: rest) this)
  = result_of (deliver_all rest (result_of (deliver n this))).
Proof.
  intros H. cbn [deliver_all].
  exact (bind_result (deliver n) (fun _ => deliver_all rest) this tt H).
Qed.

Lemma deliver_all_completion_cons n rest this :
  completion_of (deliver n this) = Returned tt ->
  completion_of (deliver_all (n :: rest) this)
  = completion_of (deliver_all rest (result_of (deliver n this))).
Proof.
  intros H. cbn [deliver_all].
  exact (bind_completion (deliver n) (fun _ => deliver_all rest) this tt H).
Qed.








(** ** The state-change handler *)



(** ** The account-info handler *)


(** ** Logout *)

(** C6: [logout] on a snapshot whose authentication state is not
    [Authenticated] returns with the instance unchanged and an empty trace
    (no call of the provider's logout); on an [Authenticated] snapshot it
    makes exactly the one call of the provider's logout and leaves the
    instance unchanged. *)
Theorem logout_guarded this :
  (st_authenticationState (state this) <> Authenticated ->
   logout this = (Returned tt, this, [])
   /\ count is_logout (trace_of (logout this)) = 0)
  /\ (st_authenticationState (state this) = Authenticated ->
      logout this = (Returned tt, this, [authProvider_logout])).
Proof.
  unfold logout, bind, get_this. split.
  - intros Hne.
    destruct (AuthenticationState_eqb_spec
                (st_authenticationState (state this)) Authenticated);
      [contradiction|]. now cbn.
  - intros ->. reflexivity.
Qed.

(** ** Construction and teardown *)

(** C2: the constructed instance holds the provider's current authentication
    state and account info as its snapshot.  If that state is
    [Authenticated] and the account info is present, the constructor's trace
    is the registrations followed by one run of [onAccountInfoChanged] on that
    info: exactly one [setState] call, carrying the info, and the
    [accountInfoCallback] (if supplied) called exactly once with it.  If the
    state is [Unauthenticated] and forceLogin is set, the trace is the
    registrations followed by exactly one login call. *)
Theorem new_AzureAD_initialises p :
  let r := new_AzureAD p in
  state (result_of r) =
    {| st_authenticationState := authenticationState (provider p);
       st_accountInfo := getAccountInfo (provider p) |}
  /\ props (result_of r) = p
  /\ (forall info : IAccountInfo,
        authenticationState (provider p) = Authenticated ->
        getAccountInfo (provider p) = Some info ->
        trace_of r =
          registration_trace p
          ++ trace_of (onAccountInfoChanged info (initial_instance p))
        /\ filter is_setState (trace_of r)
           = [call_setState (Upd_accountInfo info)]
        /\ filter is_accountInfoCallback (trace_of r)
           = match accountInfoCallback p with
             | Some cb => [call_accountInfoCallback cb info]
             | None => []
             end
        /\ count is_login (trace_of r) = 0)
  /\ (authenticationState (provider p) = Unauthenticated ->
      forceLogin_set p = true ->
      trace_of r = registration_trace p ++ [authProvider_login]
      /\ count is_login (trace_of r) = 1
      /\ count is_setState (trace_of r) = 0).
Proof.
  cbv zeta. rewrite new_AzureAD_eq. cbn [result_of trace_of fst snd].
  split; [reflexivity|]. split; [reflexivity|]. split.
  - intros info Hs Ha. rewrite Hs, Ha.
    rewrite onAccountInfoChanged_not_mounted by discriminate.
    cbn [trace_of snd initial_instance props].
    unfold registration_trace, callback_trace.
    destruct (reduxStore p), (accountInfoCallback p); repeat split.
  - intros Hs Hf. rewrite Hs, Hf. unfold registration_trace.
    destruct (reduxStore p); repeat split.
Qed.

(** C3: the constructor's trace holds exactly two subscription events, the
    registration of [this.setAuthenticationState] on the state channel and of
    [this.onAccountInfoChanged] on the account-info channel; mounting and
    notification handling make no subscription call; unmounting makes exactly
    the two matching unregistration calls and changes nothing but the life
    cycle; and a notification delivered after that returns normally with the
    instance (snapshot included) unchanged, no re-render and no login call. *)
Theorem subscription_lifecycle p this
    n :
  let torn := result_of (unmount this) in
  filter is_subscription (trace_of (new_AzureAD p)) =
    [registerAuthenticationStateHandler This_setAuthenticationState;
     registerAcountInfoHandler This_onAccountInfoChanged]
  /\ filter is_subscription (trace_of (mount this)) = []
  /\ filter is_subscription (trace_of (deliver n this)) = []
  /\ trace_of (unmount this) =
       [unregisterAuthenticationStateHandler This_setAuthenticationState;
        unregisterAccountInfoHandler This_onAccountInfoChanged]
  /\ torn = set_lifecycle Unmounted this
  /\ state torn = state this
  /\ exists log,
       deliver n torn = (Returned tt, torn, log)
       /\ count is_rendered log = 0
       /\ count is_login log = 0.
Proof.
  cbv zeta. split; [|split; [|split; [|split; [|split; [|split]]]]].
  - rewrite new_AzureAD_eq. cbn [trace_of snd].
    unfold registration_trace, callback_trace.
    destruct (authenticationState (provider p)),
      (getAccountInfo (provider p)), (forceLogin_set p), (reduxStore p),
      (accountInfoCallback p); reflexivity.
  - apply mount_no_subscription.
  - apply deliver_no_subscription.
  - reflexivity.
  - reflexivity.
  - reflexivity.
  - set (torn := result_of (unmount this)).
    assert (Hl : lifecycle torn <> Mounted) by (cbn; discriminate).
    destruct n as [s|a]; cbn [deliver].
    + rewrite setAuthenticationState_not_mounted by exact Hl.
      eexists. split; [reflexivity|].
      now destruct (AuthenticationState_eqb s _).
    + rewrite onAccountInfoChanged_not_mounted by exact Hl.
      eexists. split; [reflexivity|].
      unfold callback_trace.
      now destruct (accountInfoCallback (props torn)).
Qed.

(** ** Content resolution *)

Lemma getChildrenOrFunction_no_warn c fp :
  count is_warn (snd (getChildrenOrFunction (Store:=Store) c fp)) = 0.
Proof.
  unfold getChildrenOrFunction.
  destruct (ToBoolean c); [destruct c|]; reflexivity.
Qed.

Lemma getChildrenOrFunction_no_warning_event c
    fp (msg : string) :
  ~ In (console_warn msg) (snd (getChildrenOrFunction (Store:=Store) c fp)).
Proof.
  unfold getChildrenOrFunction.
  destruct (ToBoolean c); [destruct c|]; cbn; intuition discriminate.
Qed.

(** C10: [getChildrenOrFunction] returns [null] with no call for every falsy
    content value ([undefined], [null], [false], [0], [-0], [NaN] and the empty
    string are all falsy); a callable value is called once with the props
    bundle and its result is returned as it is, falsy or not; every other
    truthy value is returned unchanged, with no call. *)
Theorem getChildrenOrFunction_spec c fp :
  (ToBoolean c = false ->
   getChildrenOrFunction (Store:=Store) c fp = (JsNull, []))
  /\ (forall f, c = JsFunction f ->
        getChildrenOrFunction (Store:=Store) c fp = (f fp, [call_children fp]))
  /\ (ToBoolean c = true -> is_function c = false ->
      getChildrenOrFunction (Store:=Store) c fp = (c, []))
  /\ Forall (fun v : JsValue IAccountInfo => ToBoolean v = false)
       [JsUndefined; JsNull; JsBoolean false;
        JsNumber (S754_zero false); JsNumber (S754_zero true);
        JsNumber S754_nan; JsString ""].
Proof.
  split; [|split; [|split]]; unfold getChildrenOrFunction.
  - now intros ->.
  - now intros f ->.
  - intros -> Hf. destruct c; try reflexivity. discriminate Hf.
  - repeat constructor.
Qed.

(** C7: with an [Authenticated] snapshot, a supplied [authenticatedFunction]
    is called with [this.logout]; when its result is truthy the deprecation
    warning is emitted and the result returned, with no call of the generic
    path; when its result is falsy, or when no such function was supplied,
    the result is that of [getChildrenOrFunction] on [children] and the bundle
    [{accountInfo, authenticationState, login, logout}], with no warning.  The
    warning appears if and only if the function was supplied and returned a
    truthy value. *)
Theorem render_Authenticated this :
  st_authenticationState (state this) = Authenticated ->
  let fprops :=
    {| fp_login := AuthProvider_login;
       fp_logout := AuthProvider_logout;
       fp_authenticationState := Authenticated;
       fp_accountInfo := st_accountInfo (state this) |} in
  let generic := getChildrenOrFunction (children (props this)) fprops in
  (forall f, authenticatedFunction (props this) = Some f ->
     ToBoolean (f This_logout) = true ->
     render this =
       (f This_logout,
        [call_authenticatedFunction This_logout;
         console_warn warn_authenticatedFunction]))
  /\ (forall f, authenticatedFunction (props this) = Some f ->
        ToBoolean (f This_logout) = false ->
        render this =
          (fst generic, call_authenticatedFunction This_logout :: snd generic)
        /\ count is_warn (snd (render this)) = 0)
  /\ (authenticatedFunction (props this) = None ->
      render this = generic /\ count is_warn (snd (render this)) = 0)
  /\ (In (console_warn warn_authenticatedFunction) (snd (render this)) <->
      exists f, authenticatedFunction (props this) = Some f
                /\ ToBoolean (f This_logout) = true)
  /\ (forall g, authenticatedFunction (props this) = None ->
        children (props this) = JsFunction g ->
        render this = (g fprops, [call_children fprops])).
Proof.
  intros Hs. cbv zeta. unfold render, childrenFunctionProps. rewrite Hs.
  set (fprops := {| fp_login := AuthProvider_login;
                    fp_logout := AuthProvider_logout;
                    fp_authenticationState := Authenticated;
                    fp_accountInfo := st_accountInfo (state this) |}).
  split; [|split; [|split; [|split]]].
  - intros f -> ->. reflexivity.
  - intros f -> ->. split; [reflexivity|].
    cbn [snd]. rewrite count_cons. cbn [is_warn].
    apply getChildrenOrFunction_no_warn.
  - intros ->. split; [|apply getChildrenOrFunction_no_warn].
    now destruct (getChildrenOrFunction _ _).
  - destruct (authenticatedFunction (props this)) as [f|].
    + destruct (ToBoolean (f This_logout)) eqn:Hf.
      * split; [intros _; now exists f|intros _; cbn; auto].
      * split.
        -- cbn [snd]. intros [H|H]; [discriminate H|].
           now apply getChildrenOrFunction_no_warning_event in H.
        -- intros (f' & Heq & Ht). congruence.
    + split.
      * intros H. now apply getChildrenOrFunction_no_warning_event in H.
      * intros (f' & Heq & _). discriminate Heq.
  - intros g -> Hc. rewrite Hc. reflexivity.
Qed.

(** C8: with an [Unauthenticated] snapshot, a supplied
    [unauthenticatedFunction] makes [render] emit the deprecation warning,
    call the function with [this.login] and return its result, or [null] when
    that result is falsy; [children] is never called or returned on this
    path.  Only when no such function was supplied is the result that of
    [getChildrenOrFunction] on [children] and the props bundle. *)
Theorem render_Unauthenticated this :
  st_authenticationState (state this) = Unauthenticated ->
  let fprops :=
    {| fp_login := AuthProvider_login;
       fp_logout := AuthProvider_logout;
       fp_authenticationState := Unauthenticated;
       fp_accountInfo := st_accountInfo (state this) |} in
  (forall f, unauthenticatedFunction (props this) = Some f ->
     render this =
       ((if ToBoolean (f This_login) then f This_login else JsNull),
        [console_warn warn_unauthenticatedFunction;
         call_unauthenticatedFunction This_login])
     /\ count is_children_call (snd (render this)) = 0)
  /\ (unauthenticatedFunction (props this) = None ->
      render this = getChildrenOrFunction (children (props this)) fprops)
  /\ (count is_children_call (snd (render this)) > 0 ->
      unauthenticatedFunction (props this) = None).
Proof.
  intros Hs. cbv zeta. unfold render, childrenFunctionProps. rewrite Hs.
  split; [|split].
  - intros f ->. split; reflexivity.
  - now intros ->.
  - destruct (unauthenticatedFunction (props this)); [|reflexivity].
    cbn. intros H. inversion H.
Qed.

(** C9: with a snapshot whose authentication state is neither
    [Authenticated] nor [Unauthenticated], [render] returns [null] and makes
    no call, whatever the props hold. *)
Theorem render_other_state this :
  st_authenticationState (state this) <> Authenticated ->
  st_authenticationState (state this) <> Unauthenticated ->
  render this = (JsNull, []).
Proof.
  intros Ha Hu. unfold render.
  destruct (st_authenticationState (state this));
    [contradiction|reflexivity|contradiction].
Qed.

(** ** The handlers in every life-cycle phase *)


Lemma completion_cases {A : Type} (r : Completion A) :
  (exists a, r = Returned a) \/ (exists x, r = Thrown x).
Proof. destruct r as [a|x]; [left; now exists a|right; now exists x]. Qed.

Lemma deliver_all_filter_none pr :
  (forall n this, filter pr (trace_of (deliver n this)) = []) ->
  forall ns this, filter pr (trace_of (deliver_all ns this)) = [].
Proof.
  intros H ns. induction ns as [|n rest IH]; intros this; [reflexivity|].
  cbn [deliver_all].
  destruct (completion_cases (completion_of (deliver n this)))
    as [[[] Hc]|[x Hc]].
  - rewrite (bind_trace (deliver n) (fun _ => deliver_all rest) this tt Hc).
    now rewrite filter_app, H, IH.
  - rewrite (bind_thrown (deliver n) (fun _ => deliver_all rest) this x Hc).
    apply H.
Qed.

Lemma deliver_all_no_subscription ns this :
  filter is_subscription (trace_of (deliver_all ns this)) = [].
Proof.
  apply deliver_all_filter_none. apply deliver_no_subscription.
Qed.


(** X1: each handler writes only its own field.  In every life-cycle phase
    [setAuthenticationState] leaves the props, the phase and the snapshot's
    account info as they were, and [onAccountInfoChanged] leaves the props,
    the phase and the snapshot's authentication state as they were. *)
Theorem handlers_touch_own_field this (s : AuthenticationState)
    (a : IAccountInfo) :
  let after_state := result_of (setAuthenticationState s this) in
  let after_info := result_of (onAccountInfoChanged a this) in
  (props after_state = props this
   /\ lifecycle after_state = lifecycle this
   /\ st_accountInfo (state after_state) = st_accountInfo (state this))
  /\ (props after_info = props this
      /\ lifecycle after_info = lifecycle this
      /\ st_authenticationState (state after_info)
         = st_authenticationState (state this)).
Proof.
  cbv zeta. rewrite setAuthenticationState_eq, onAccountInfoChanged_eq.
  destruct (AuthenticationState_eqb s _), (lifecycle this) eqn:Hl,
    (batching this); cbv zeta;
    repeat match goal with
           | |- context [is_renderable ?c] => destruct (is_renderable c)
           end;
    cbn; repeat split; exact Hl.
Qed.



(** X4: an instance that is not mounted ignores every run of notifications:
    it is left unchanged, nothing is rendered and no login or logout call is
    made. *)
Theorem unmounted_ignores_notifications ns this :
  lifecycle this <> Mounted ->
  result_of (deliver_all ns this) = this
  /\ count is_rendered (trace_of (deliver_all ns this)) = 0
  /\ count is_login (trace_of (deliver_all ns this)) = 0
  /\ count is_logout (trace_of (deliver_all ns this)) = 0.
Proof.
  intros Hm. induction ns as [|n rest IH].
  - repeat split.
  - assert (Hn : exists log,
               deliver n this = (Returned tt, this, log)
               /\ count is_rendered log = 0
               /\ count is_login log = 0
               /\ count is_logout log = 0).
    { destruct n as [s|a]; cbn [deliver].
      - rewrite setAuthenticationState_not_mounted by exact Hm.
        eexists. split; [reflexivity|].
        destruct (AuthenticationState_eqb s _); repeat split.
      - rewrite onAccountInfoChanged_not_mounted by exact Hm.
        eexists. split; [reflexivity|].
        unfold callback_trace.
        destruct (accountInfoCallback (props this)); repeat split. }
    destruct Hn as (log & Hd & H1 & H2 & H3).
    destruct IH as (IHr & IH1 & IH2 & IH3).
    assert (Hc : completion_of (deliver n this) = Returned tt)
      by now rewrite Hd.
    rewrite deliver_all_result_cons, deliver_all_trace_cons by exact Hc.
    rewrite Hd. cbn [result_of trace_of fst snd].
    rewrite !count_app, IHr, H1, H2, H3, IH1, IH2, IH3. repeat split.
Qed.

(** ** Runs of notifications *)













(** ** The constructor and the actions *)

(** X9: what the constructor calls.  The provider's login is called once if
    the provider reports [Unauthenticated] and forceLogin is set, and not at
    all otherwise; [setState] is called once if the provider reports
    [Authenticated] with an account info, and not at all otherwise; logout is
    never called, nothing is rendered, and the snapshot is the one the field
    initialisers read. *)
Theorem new_AzureAD_effects p :
  let log := trace_of (new_AzureAD p) in
  count is_login log =
    (if AuthenticationState_eqb (authenticationState (provider p))
          Unauthenticated
        && forceLogin_set p
     then 1 else 0)
  /\ count is_setState log =
       (match authenticationState (provider p), getAccountInfo (provider p) with
        | Authenticated, Some _ => 1
        | _, _ => 0
        end)
  /\ count is_logout log = 0
  /\ count is_rendered log = 0
  /\ result_of (new_AzureAD p) = initial_instance p.
Proof.
  cbv zeta. rewrite new_AzureAD_eq. cbn [trace_of result_of fst snd].
  unfold registration_trace, callback_trace.
  destruct (authenticationState (provider p)),
    (getAccountInfo (provider p)), (forceLogin_set p), (reduxStore p),
    (accountInfoCallback p); repeat split.
Qed.

(** X10: the store is forwarded to the provider exactly when one was
    supplied, once, after the two handler registrations and before anything
    else the constructor does; no notification handler forwards a store. *)
Theorem reduxStore_forwarded p ns this :
  (exists rest,
     trace_of (new_AzureAD p) =
       [registerAuthenticationStateHandler This_setAuthenticationState;
        registerAcountInfoHandler This_onAccountInfoChanged]
       ++ match reduxStore p with
          | Some store => [registerReduxStore store]
          | None => []
          end
       ++ rest
     /\ filter is_register_store rest = []
     /\ filter is_subscription rest = [])
  /\ filter is_register_store (trace_of (deliver_all ns this)) = [].
Proof.
  split.
  - rewrite new_AzureAD_eq. cbn [trace_of snd]. unfold registration_trace.
    rewrite <- app_assoc. eexists. split; [reflexivity|].
    unfold callback_trace.
    destruct (authenticationState (provider p)),
      (getAccountInfo (provider p)), (forceLogin_set p),
      (accountInfoCallback p); split; reflexivity.
  - apply deliver_all_filter_none. clear. intros n this.
    destruct n as [s|a]; cbn [deliver].
    + rewrite setAuthenticationState_eq.
      destruct (AuthenticationState_eqb s _), (lifecycle this),
        (batching this); cbv zeta;
        try destruct (is_renderable _);
        cbn [trace_of snd filter is_register_store];
        rewrite ?filter_app, ?filter_render by (now intros []);
        cbn [app filter is_register_store];
        try reflexivity;
        now destruct (AuthenticationState_eqb s Unauthenticated
                      && forceLogin_set (props this)).
    + rewrite onAccountInfoChanged_eq.
      destruct (lifecycle this), (batching this); cbv zeta;
        try destruct (is_renderable _);
        cbn [trace_of snd filter is_register_store];
        rewrite ?filter_app, ?filter_render by (now intros []);
        cbn [app filter is_register_store];
        try reflexivity;
        unfold callback_trace;
        now destruct (accountInfoCallback (props this)).
Qed.

Lemma logout_eq this :
  logout this =
    (Returned tt, this,
     if AuthenticationState_eqb (st_authenticationState (state this))
          Authenticated
     then [authProvider_logout] else []).
Proof.
  unfold logout, bind, get_this.
  now destruct (AuthenticationState_eqb _ _).
Qed.

(** X11: the actions called repeatedly.  [k] calls of [login] in direct
    succession make [k] calls of the provider's login (the bridge does not
    de-duplicate) and leave the instance unchanged; [k] calls of [logout]
    make [k] calls of the provider's logout on an [Authenticated] snapshot
    and none on any other, and leave the instance unchanged. *)
Theorem actions_repeated (k : nat) this :
  times k login this = (Returned tt, this, repeat authProvider_login k)
  /\ times k logout this =
       (Returned tt, this,
        if AuthenticationState_eqb (st_authenticationState (state this))
             Authenticated
        then repeat authProvider_logout k else []).
Proof.
  split.
  - induction k as [|k IH]; [reflexivity|].
    cbn [times repeat]. unfold bind at 1. unfold login at 1, emit.
    cbv beta iota zeta. now rewrite IH.
  - induction k as [|k IH].
    + cbn. now destruct (AuthenticationState_eqb _ _).
    + cbn [times repeat]. unfold bind at 1. rewrite logout_eq.
      cbv beta iota zeta. rewrite IH.
      now destruct (AuthenticationState_eqb _ _).
Qed.

(** ** Inside a batch *)

(** X15: inside a React batch the handlers only queue.  Over any run of
    notifications delivered to a mounted instance while a batch is open,
    the snapshot keeps the value it had, nothing is rendered, and neither
    login nor logout is called; every guard therefore compares with the
    authentication state of the batch's start, and the number of [setState]
    calls is the number of notifications that pass the guards against that
    one value. *)
Theorem batch_guard_is_stale ns this :
  lifecycle this = Mounted ->
  batching this = true ->
  let r := deliver_all ns this in
  completion_of r = Returned tt
  /\ state (result_of r) = state this
  /\ count is_setState (trace_of r)
     = passing ns (st_authenticationState (state this))
  /\ count is_rendered (trace_of r) = 0
  /\ count is_login (trace_of r) = 0
  /\ count is_logout (trace_of r) = 0.
Proof.
  revert this. induction ns as [|n rest IH]; intros this Hm Hb.
  - repeat split.
  - cbv zeta.
    assert (Hn : exists this1 log,
               deliver n this = (Returned tt, this1, log)
               /\ lifecycle this1 = Mounted
               /\ batching this1 = true
               /\ state this1 = state this
               /\ count is_setState log
                  = passing [n] (st_authenticationState (state this))
               /\ count is_rendered log = 0
               /\ count is_login log = 0
               /\ count is_logout log = 0).
    { destruct n as [s|a]; cbn [deliver passing].
      - rewrite setAuthenticationState_eq, Hm, Hb.
        destruct (AuthenticationState_eqb s _);
          do 2 eexists; (split; [reflexivity|]); repeat split; assumption.
      - rewrite onAccountInfoChanged_eq, Hm, Hb.
        do 2 eexists. split; [reflexivity|].
        rewrite !count_cons, !count_callback_trace by reflexivity.
        repeat split; assumption. }
    destruct Hn as (this1 & log & Hd & Hm1 & Hb1 & Hst & H1 & H2 & H3 & H4).
    assert (Hc : completion_of (deliver n this) = Returned tt)
      by now rewrite Hd.
    rewrite deliver_all_completion_cons, deliver_all_result_cons,
      deliver_all_trace_cons by exact Hc.
    rewrite Hd. cbn [result_of trace_of fst snd].
    destruct (IH this1 Hm1 Hb1) as (IHc & IHs & IH1 & IH2 & IH3 & IH4).
    rewrite !count_app, IHc, IHs, IH1, IH2, IH3, IH4, Hst, H1, H2, H3, H4.
    repeat split.
    destruct n as [s|a]; cbn [passing]; lia.
Qed.

(** ** What render does and does not do *)

(** X12: [render] only calls the caller's content functions and
    [console.warn].  It never calls the provider's login or logout, never
    registers or unregisters, never calls [setState] or the
    [accountInfoCallback]; and one [render] emits at most one deprecation
    warning, calls at most one deprecated content function and calls
    [children] at most once. *)
Theorem render_side_effect_free this :
  count is_side_effect (snd (render this)) = 0
  /\ count is_warn (snd (render this)) <= 1
  /\ count is_legacy_call (snd (render this)) <= 1
  /\ count is_children_call (snd (render this)) <= 1.
Proof.
  split.
  - apply count_render. now intros [].
  - unfold render, getChildrenOrFunction.
    destruct (st_authenticationState (state this));
      destruct (authenticatedFunction (props this)) as [fa|];
      destruct (unauthenticatedFunction (props this)) as [fu|];
      try destruct (ToBoolean (fa This_logout));
      destruct (ToBoolean (children (props this)));
      destruct (children (props this)); cbn; auto.
Qed.

Lemma getChildrenOrFunction_null_or_truthy c fp :
  is_function c = false ->
  ToBoolean (fst (getChildrenOrFunction (Store:=Store) c fp)) = false ->
  fst (getChildrenOrFunction (Store:=Store) c fp) = JsNull.
Proof.
  unfold getChildrenOrFunction. intros Hf.
  destruct (ToBoolean c) eqn:Ht; [|reflexivity].
  destruct c; cbn [fst]; try congruence. discriminate Hf.
Qed.

(** X13: with [children] that is not a function, the content [render]
    returns is either truthy or [null]: a falsy value other than [null]
    ([0], the empty string, [false], [undefined], [NaN]) never reaches the
    rendering surface, in any authentication state and whatever the
    deprecated content functions return. *)
Theorem render_null_or_truthy this :
  is_function (children (props this)) = false ->
  ToBoolean (fst (render this)) = false ->
  fst (render this) = JsNull.
Proof.
  intros Hf. unfold render, js_or.
  destruct (st_authenticationState (state this)).
  - destruct (unauthenticatedFunction (props this)) as [fu|].
    + cbn [fst]. destruct (ToBoolean (fu This_login)) eqn:Hu;
        [congruence|reflexivity].
    + now apply getChildrenOrFunction_null_or_truthy.
  - reflexivity.
  - destruct (authenticatedFunction (props this)) as [fa|].
    + destruct (ToBoolean (fa This_logout)) eqn:Ha; cbn [fst].
      * congruence.
      * now apply getChildrenOrFunction_null_or_truthy.
    + now apply getChildrenOrFunction_null_or_truthy.
Qed.

(** X14: who [render] calls, and with what.  A call of [children] always
    carries the provider's own login and logout together with the current
    snapshot's authentication state and account info, happens only for a
    callable [children], and its result is what [render] returns.  The
    deprecated [authenticatedFunction] is called only on an [Authenticated]
    snapshot, with [this.logout]; the deprecated [unauthenticatedFunction]
    only on an [Unauthenticated] snapshot, with [this.login]. *)
Theorem render_calls this :
  (forall fp,
     In (call_children fp) (snd (render this)) ->
     fp_login fp = AuthProvider_login
     /\ fp_logout fp = AuthProvider_logout
     /\ fp_authenticationState fp = st_authenticationState (state this)
     /\ fp_accountInfo fp = st_accountInfo (state this)
     /\ st_authenticationState (state this) <> InProgress
     /\ exists g, children (props this) = JsFunction g
                  /\ fst (render this) = g fp)
  /\ (forall arg,
        In (call_authenticatedFunction arg) (snd (render this)) ->
        arg = This_logout
        /\ st_authenticationState (state this) = Authenticated
        /\ authenticatedFunction (props this) <> None)
  /\ (forall arg,
        In (call_unauthenticatedFunction arg) (snd (render this)) ->
        arg = This_login
        /\ st_authenticationState (state this) = Unauthenticated
        /\ unauthenticatedFunction (props this) <> None).
Proof.
  unfold render, getChildrenOrFunction, childrenFunctionProps.
  destruct (st_authenticationState (state this));
    destruct (authenticatedFunction (props this)) as [fa|];
    destruct (unauthenticatedFunction (props this)) as [fu|];
    try destruct (ToBoolean (fa This_logout));
    destruct (ToBoolean (children (props this)));
    destruct (children (props this)) as [| |b|x|str|ref|g];
    cbn [fst snd In];
    (split; [|split]); intros x0 H;
    repeat match goal with
           | H : _ \/ _ |- _ => destruct H as [H|H]
           | H : False |- _ => destruct H
           end;
    try discriminate H;
    injection H as <-; cbn;
    repeat split; try discriminate; eexists; split; reflexivity.
Qed.

End BridgeFacts.

(** ** The theorems at concrete inputs *)








(** Logout from a signed-out and from a signed-in bridge. *)
Lemma logout_guarded_witness :
  let signed_out := mounted (sample_props Unauthenticated None None None) in
  let signed_in := mounted (sample_props Authenticated (Some "alice") None None) in
  st_authenticationState (state signed_out) <> Authenticated
  /\ logout signed_out = (Returned tt, signed_out, [])
  /\ st_authenticationState (state signed_in) = Authenticated
  /\ logout signed_in = (Returned tt, signed_in, [authProvider_logout]).
Proof.
  cbv zeta.
  split; [discriminate|]. split.
  - apply (proj1 (logout_guarded
                    (mounted (sample_props Unauthenticated None None None)))).
    discriminate.
  - split; [reflexivity|].
    apply (proj2 (logout_guarded
                    (mounted (sample_props Authenticated (Some "alice") None None)))).
    reflexivity.
Defined.

(** Construction of an already signed-in bridge with a callback, and of a
    signed-out bridge with forceLogin. *)
Lemma new_AzureAD_initialises_witness :
  let signed_in := sample_props Authenticated (Some "alice") None (Some 3) in
  let signed_out := sample_props Unauthenticated None (Some true) None in
  (authenticationState (provider signed_in) = Authenticated
   /\ getAccountInfo (provider signed_in) = Some "alice"
   /\ filter is_setState (trace_of (new_AzureAD signed_in))
      = [call_setState (Upd_accountInfo "alice")]
   /\ filter is_accountInfoCallback (trace_of (new_AzureAD signed_in))
      = [call_accountInfoCallback 3 "alice"])
  /\ (authenticationState (provider signed_out) = Unauthenticated
      /\ forceLogin_set signed_out = true
      /\ trace_of (new_AzureAD signed_out) =
           [registerAuthenticationStateHandler This_setAuthenticationState;
            registerAcountInfoHandler This_onAccountInfoChanged;
            registerReduxStore 7;
            authProvider_login]).
Proof.
  cbv zeta. split.
  - split; [reflexivity|]. split; [reflexivity|].
    destruct (new_AzureAD_initialises
                (sample_props Authenticated (Some "alice") None (Some 3)))
      as (_ & _ & Hin & _).
    destruct (Hin "alice" eq_refl eq_refl) as (_ & Hset & Hcb & _).
    split; [exact Hset|exact Hcb].
  - split; [reflexivity|]. split; [reflexivity|].
    destruct (new_AzureAD_initialises
                (sample_props Unauthenticated None (Some true) None))
      as (_ & _ & _ & Hout).
    destruct (Hout eq_refl eq_refl) as (Htrace & _).
    exact Htrace.
Defined.

(** Falsy children, callable children and an element as children. *)
Lemma getChildrenOrFunction_spec_witness :
  getChildrenOrFunction (Store:=nat) (JsNumber (S754_zero false)) sample_fprops
  = (JsNull, [])
  /\ getChildrenOrFunction (Store:=nat) sample_children sample_fprops
     = (JsString "alice", [call_children sample_fprops])
  /\ getChildrenOrFunction (Store:=nat) (JsObject 1) sample_fprops
     = (JsObject 1, []).
Proof.
  split; [|split].
  - apply (proj1 (getChildrenOrFunction_spec (Store:=nat)
                    (JsNumber (S754_zero false)) sample_fprops)).
    reflexivity.
  - exact (proj1 (proj2 (getChildrenOrFunction_spec (Store:=nat)
                           sample_children sample_fprops)) _ eq_refl).
  - apply (proj1 (proj2 (proj2 (getChildrenOrFunction_spec (Store:=nat)
                                  (JsObject 1) sample_fprops))));
      reflexivity.
Defined.

(** A signed-in bridge whose deprecated authenticated-content function
    returns an element, and one whose function returns nothing. *)
Lemma render_Authenticated_witness :
  let shown := mounted (legacy_props Authenticated (fun _ => JsObject 5)
                          (fun _ => JsNull)) in
  let empty := mounted (legacy_props Authenticated (fun _ => JsNull)
                          (fun _ => JsNull)) in
  st_authenticationState (state shown) = Authenticated
  /\ render shown =
       (JsObject 5,
        [call_authenticatedFunction This_logout;
         console_warn warn_authenticatedFunction])
  /\ st_authenticationState (state empty) = Authenticated
  /\ render empty =
       (JsString "nobody",
        [call_authenticatedFunction This_logout;
         call_children
           {| fp_login := AuthProvider_login;
              fp_logout := AuthProvider_logout;
              fp_authenticationState := Authenticated;
              fp_accountInfo := None |}]).
Proof.
  cbv zeta.
  split; [reflexivity|]. split.
  - destruct (render_Authenticated
                (mounted (legacy_props Authenticated (fun _ => JsObject 5)
                            (fun _ => JsNull))) eq_refl)
      as (Htruthy & _).
    apply (Htruthy (fun _ => JsObject 5)); reflexivity.
  - split; [reflexivity|].
    destruct (render_Authenticated
                (mounted (legacy_props Authenticated (fun _ => JsNull)
                            (fun _ => JsNull))) eq_refl)
      as (_ & Hfalsy & _).
    apply (Hfalsy (fun _ => JsNull)); reflexivity.
Defined.

(** A signed-out bridge whose deprecated unauthenticated-content function
    returns the empty string. *)
Lemma render_Unauthenticated_witness :
  let this := mounted (legacy_props Unauthenticated (fun _ => JsNull)
                         (fun _ => JsString "")) in
  st_authenticationState (state this) = Unauthenticated
  /\ render this =
       (JsNull,
        [console_warn warn_unauthenticatedFunction;
         call_unauthenticatedFunction This_login]).
Proof.
  cbv zeta.
  split; [reflexivity|].
  destruct (render_Unauthenticated
              (mounted (legacy_props Unauthenticated (fun _ => JsNull)
                          (fun _ => JsString ""))) eq_refl)
    as (Hlegacy & _).
  apply (Hlegacy (fun _ => JsString "")). reflexivity.
Defined.

(** A bridge in progress, with every content function supplied. *)
Lemma render_other_state_witness :
  let this := mounted (legacy_props InProgress (fun _ => JsObject 5)
                         (fun _ => JsObject 6)) in
  st_authenticationState (state this) <> Authenticated
  /\ st_authenticationState (state this) <> Unauthenticated
  /\ render this = (JsNull, []).
Proof.
  cbv zeta.
  split; [discriminate|]. split; [discriminate|].
  apply render_other_state; discriminate.
Defined.

(** A late account-info notification on an unmounted bridge: the snapshot
    keeps its value, while a supplied [accountInfoCallback] is still warned
    about and called. *)
Example late_notification_still_calls_back :
  let torn :=
    result_of (unmount (mounted
      (sample_props Authenticated (Some "alice") None (Some 3)))) in
  deliver (AccountInfoChanged "eve") torn =
    (Returned tt, torn,
     [call_setState (Upd_accountInfo "eve");
      console_warn warn_accountInfoCallback;
      call_accountInfoCallback 3 "eve"])
  /\ st_accountInfo (state torn) = Some "alice".
Proof. split; reflexivity. Qed.

(** ** The further facts at concrete inputs *)



Lemma unmounted_ignores_notifications_witness :
  let torn :=
    result_of (unmount (mounted
      (sample_props Authenticated (Some "alice") (Some true) (Some 3)))) in
  lifecycle torn <> Mounted
  /\ result_of (deliver_all sample_run torn) = torn
  /\ count is_login (trace_of (deliver_all sample_run torn)) = 0.
Proof.
  cbv zeta. split; [discriminate|].
  destruct (unmounted_ignores_notifications sample_run
              (result_of (unmount (mounted
                 (sample_props Authenticated (Some "alice") (Some true) (Some 3))))))
    as (Hsame & _ & Hlogin & _); [discriminate|].
  split; [exact Hsame|exact Hlogin].
Defined.





(** The sample run inside one batch: the repeated loss of the session passes
    the guard both times, so five [setState] calls are queued and nothing is
    rendered before the batch ends. *)
Lemma batch_guard_is_stale_witness :
  let this :=
    set_batching true
      (mounted (sample_props Authenticated (Some "alice") (Some true) None)) in
  lifecycle this = Mounted
  /\ batching this = true
  /\ count is_setState (trace_of (deliver_all sample_run this)) = 5
  /\ count is_rendered (trace_of (deliver_all sample_run this)) = 0
  /\ state (result_of (deliver_all sample_run this)) = state this.
Proof.
  cbv zeta. split; [reflexivity|]. split; [reflexivity|].
  destruct (batch_guard_is_stale sample_run
              (set_batching true
                 (mounted (sample_props Authenticated (Some "alice")
                             (Some true) None)))
              eq_refl eq_refl)
    as (_ & Hstate & Hset & Hren & _).
  split; [exact Hset|]. split; [exact Hren|exact Hstate].
Defined.

(** A signed-in bridge whose [children] is the number zero renders
    nothing. *)
Lemma render_null_or_truthy_witness :
  let this := mounted (static_props Authenticated (JsNumber (S754_zero false))) in
  is_function (children (props this)) = false
  /\ ToBoolean (fst (render this)) = false
  /\ fst (render this) = JsNull.
Proof.
  cbv zeta. split; [reflexivity|]. split; [reflexivity|].
  apply (render_null_or_truthy
           (mounted (static_props Authenticated (JsNumber (S754_zero false)))));
    reflexivity.
Defined.

(** The content function of a signed-in bridge receives the provider's
    logout and the snapshot. *)
Lemma render_calls_witness :
  let this := mounted (sample_props Authenticated (Some "alice") None None) in
  In (call_children sample_fprops) (snd (render this))
  /\ fp_logout sample_fprops = AuthProvider_logout
  /\ fp_accountInfo sample_fprops = st_accountInfo (state this).
Proof.
  cbv zeta.
  assert (Hin : In (call_children sample_fprops)
                  (snd (render (mounted
                     (sample_props Authenticated (Some "alice") None None)))))
    by (left; reflexivity).
  split; [exact Hin|].
  destruct (render_calls
              (mounted (sample_props Authenticated (Some "alice") None None)))
    as (Hchildren & _).
  destruct (Hchildren sample_fprops Hin) as (_ & Hlogout & _ & Hinfo & _).
  split; [exact Hlogout|exact Hinfo].
Defined.
